(** * XSLTProcessor: the Rhino/JavaScript facade over a JAXP XSLT engine

    A shallow embedding of [XSLTProcessor.class] (the value classifier, the
    value-to-markup encoder [value2xml] and the processor's methods) and the
    properties of its coercion and marshalling layer.

    The XSLT engine, the DOM parser and serializer, the E4X [XML] type, the
    number-to-string conversion and the file system are collaborators the
    script reaches through Rhino's Java bridge.  They are interfaces here
    ([Host] and [Engine]); every definition of the script itself is written
    out and computes once an instance is given. *)

From Stdlib Require Import Ascii String List Bool Arith Lia.
From stdpp Require Import base strings gmap pretty.
Import ListNotations.
Local Open Scope string_scope.
Set Warnings "-register-all".

(** ** The host: script numbers, E4X and the Rhino shell *)

(** [number] is the script's IEEE double, with its [ToString] and
    [ToBoolean] conversions (the latter is false exactly at +0, -0 and NaN).
    [xml] is the E4X markup value: [toXMLString] is its method, [xml_toString]
    the conversion used by string concatenation, [newXML] the constructor
    [new XML(text)], which raises on text that is not well formed.
    [document] is the engine's DOM node: [parse] is [documentBuilder.parse]
    and [serialize] the identity transformer with the XML declaration
    omitted; both raise on failure.  [readFile] is the shell's primitive, it
    raises when the file cannot be read. *)
Class Host := {
  number : Type;
  number_to_string : number -> string;
  number_to_boolean : number -> bool;
  xml : Type;
  toXMLString : xml -> string;
  xml_toString : xml -> string;
  newXML : string -> option xml;
  document : Type;
  parse : string -> option document;
  serialize : document -> option string;
  readFile : string -> option string
}.

(** The double quote character, as a one-character string. *)
Definition dquote : string := String (ascii_of_nat 34) EmptyString.

(** ** Completions *)

(** A call either returns or throws; every value the script throws is a
    string. *)
Inductive completion (A : Type) : Type :=
  | Return (a : A)
  | Throw (thrown : string).
Arguments Return {A} a.
Arguments Throw {A} thrown.

(** [try { body } catch (error) { throw(thrown) }], the body raising when it
    is [None]. *)
Definition try_catch {A : Type} (body : option A) (thrown : string) : completion A :=
  match body with
  | Some a => Return a
  | None => Throw thrown
  end.

Definition completion_bind {A B : Type} (c : completion A) (k : A -> completion B)
    : completion B :=
  match c with
  | Return a => k a
  | Throw thrown => Throw thrown
  end.

(** The comma operator [(a, b)]: both operands are evaluated and the value
    is the right one. *)
Definition comma {A B : Type} (a : A) (b : B) : B := b.

(** ** Script values *)

Section Script.
Context {host : Host}.

(** A script value.  An array is the list of its elements (a hole reads as
    [VUndefined]); a plain object is the list of its own enumerable
    properties in enumeration order.  A function carries its source text
    (its string form) and its behaviour on the two arguments of a resolver
    call.  The objects meant are data objects, which leave [constructor],
    [hasOwnProperty] and [toString] to their prototype: the conversions
    below read these three from [Object.prototype] and [Array.prototype]
    (see [plain_data]). *)
Inductive value : Type :=
  | VUndefined
  | VNull
  | VBool (b : bool)
  | VNum (n : number)
  | VStr (s : string)
  | VFun (f : jsfunction)
  | VXml (x : xml)
  | VArr (elems : list value)
  | VObj (props : list (string * value))
with jsfunction : Type :=
  | Function (source : string) (call : string -> string -> value).

Definition fn_source (f : jsfunction) : string :=
  match f with Function source _ => source end.

Definition fn_call (f : jsfunction) : string -> string -> value :=
  match f with Function _ call => call end.

(** [typeof value], with E4X's ['xml']. *)
Definition typeof (v : value) : string :=
  match v with
  | VUndefined => "undefined"
  | VNull => "object"
  | VBool _ => "boolean"
  | VNum _ => "number"
  | VStr _ => "string"
  | VFun _ => "function"
  | VXml _ => "xml"
  | VArr _ => "object"
  | VObj _ => "object"
  end.

(** [value === null] *)
Definition strict_eq_null (v : value) : bool :=
  match v with VNull => true | _ => false end.

(** [value.constructor === Array] *)
Definition constructor_is_Array (v : value) : bool :=
  match v with VArr _ => true | _ => false end.

(** *** The type classifier *)

Definition isUndefined (v : value) : bool := String.eqb (typeof v) "undefined".
Definition isNull (v : value) : bool := strict_eq_null v.
Definition isString (v : value) : bool := String.eqb (typeof v) "string".
Definition isFunction (v : value) : bool := String.eqb (typeof v) "function".
Definition isObject (v : value) : bool :=
  negb (isNull v) && String.eqb (typeof v) "object".
Definition isArray (v : value) : bool := isObject v && constructor_is_Array v.
Definition isXML (v : value) : bool := String.eqb (typeof v) "xml".

(** *** Conversions *)

(** [ToBoolean]: the falsy values are undefined, null, false, the numbers
    +0, -0 and NaN, and the empty string. *)
Definition ToBoolean (v : value) : bool :=
  match v with
  | VUndefined => false
  | VNull => false
  | VBool b => b
  | VNum n => number_to_boolean n
  | VStr s => negb (String.eqb s EmptyString)
  | VFun _ => true
  | VXml _ => true
  | VArr _ => true
  | VObj _ => true
  end.

(** [a || b] *)
Definition js_or (a b : value) : value := if ToBoolean a then a else b.

(** [String(value)], also the conversion applied by [+] with a string.  An
    array joins its elements with commas, undefined and null elements giving
    nothing; a plain object has the default [toString]. *)
Fixpoint ToString (v : value) : string :=
  match v with
  | VUndefined => "undefined"
  | VNull => "null"
  | VBool true => "true"
  | VBool false => "false"
  | VNum n => number_to_string n
  | VStr s => s
  | VFun f => fn_source f
  | VXml x => xml_toString x
  | VArr elems =>
      (fix join (l : list value) : string :=
         match l with
         | [] => EmptyString
         | x :: l' =>
             let e := match x with
                      | VUndefined | VNull => EmptyString
                      | _ => ToString x
                      end in
             match l' with
             | [] => e
             | _ :: _ => e +:+ "," +:+ join l'
             end
         end) elems
  | VObj _ => "[object Object]"
  end.

(** ** The value-to-markup encoder *)

(** The array loop of [value2xml]:
    [for (var c = 0; c < value.length; c++)], entered with the counter at
    [c], the elements from index [c] on and the text built so far;
    [callee] is [arguments.callee] and [pretty c] the decimal form of the
    counter. *)
Definition encode_items (callee : value -> string) :
    nat -> list value -> string -> string :=
  fix loop (c : nat) (elems : list value) (result : string) : string :=
    match elems with
    | [] => result
    | x :: rest =>
        let result := result +:+ ("<item index=" +:+ dquote +:+ pretty c +:+ dquote +:+ ">") in
        let result := result +:+ callee x in
        let result := result +:+ "</item>" in
        loop (S c) rest result
    end.

(** The property loop of [value2xml]: [for (var key in value)] over the
    own properties ([value.hasOwnProperty(key)]). *)
Definition encode_props (callee : value -> string) :
    list (string * value) -> string -> string :=
  fix loop (props : list (string * value)) (result : string) : string :=
    match props with
    | [] => result
    | (key, x) :: rest =>
        let result := result +:+ ("<" +:+ key +:+ ">") in
        let result := result +:+ callee x in
        let result := result +:+ ("</" +:+ key +:+ ">") in
        loop rest result
    end.

(** The inner, recursive function of [value2xml].  The three branches are
    the source's [isArray(value)], [isObject(value)] and [else]. *)
Fixpoint value2xml_callee (v : value) : string :=
  match v with
  | VArr elems => encode_items value2xml_callee 0 elems EmptyString
  | VObj props => encode_props value2xml_callee props EmptyString
  | _ => ToString (js_or v (VStr EmptyString))
  end.

(** [value2xml(value)]: the encoding under the synthetic root.  A value that
    is not an object is concatenated as [value || ''] . *)
Definition value2xml (v : value) : string :=
  "<root>" +:+
  ToString (if isObject v then VStr (value2xml_callee v)
            else js_or v (VStr EmptyString)) +:+
  "</root>".

(** ** The engine's transformer *)

(** What [transformer.setParameter] is given: a Java string or a DOM
    document. *)
Inductive jobject : Type :=
  | JString (s : string)
  | JDocument (d : document).

(** The state behind one processor instance: the stylesheet text the
    transformer was built from, the transformer's parameter and
    output-property tables, and the [callback] property of the script object
    that implements [URIResolver] (absent when [None]). *)
Record transformer : Type := Transformer {
  xsltStyleSheetStr : string;
  parameters : gmap string jobject;
  outputProperties : gmap string string;
  callback : option jsfunction
}.

(** The engine.  [newTransformer text] raises when the stylesheet is rejected
    and otherwise gives the output properties the stylesheet declares.
    [valid_parameter_name] tells whether the engine takes a string as the
    name of a parameter: on a name it does not take, both
    [Transformer.setParameter] and [Transformer.getParameter] raise (Saxon,
    the engine the script asks for, reads the name in Clark notation in
    both).  [accepts_parameter] tells whether [Transformer.setParameter]
    takes the value under a name it takes, and [accepts_output_property]
    whether [Transformer.setOutputProperty] takes its arguments.
    [default_output_property_names] are the names the [Properties] object of
    [Transformer.getOutputProperties] holds as defaults: they are listed by
    [stringPropertyNames], and [get] and [containsKey] do not see them.
    [run_transform t text] is [transformer.transform(input, output)] on the
    document text, its result the text written to [output], raising on a
    parsing or transformation error. *)
Class Engine := {
  newTransformer : string -> option (gmap string string);
  valid_parameter_name : string -> bool;
  accepts_parameter : string -> jobject -> bool;
  accepts_output_property : string -> string -> bool;
  default_output_property_names : transformer -> list string;
  run_transform : transformer -> string -> option string
}.

End Script.

(** ** The processor *)

Section Processor.
Context {host : Host} {engine : Engine}.

(** *** The Java calls on the transformer *)

(** [transformer.setParameter(name, value)] *)
Definition transformer_setParameter (t : transformer) (name : string) (o : jobject)
    : option transformer :=
  if valid_parameter_name name && accepts_parameter name o
  then Some (Transformer (xsltStyleSheetStr t) (<[name:=o]> (parameters t))
                         (outputProperties t) (callback t))
  else None.

(** [transformer.getParameter(name)]: the call raises ([None]) on a name
    the engine does not take; otherwise it gives the object that was set, or
    Java's null ([Some None]) when the parameter is not set. *)
Definition transformer_getParameter (t : transformer) (name : string)
    : option (option jobject) :=
  if valid_parameter_name name then Some (parameters t !! name) else None.

(** [transformer.setOutputProperty(name, value)] *)
Definition transformer_setOutputProperty (t : transformer) (name value : string)
    : option transformer :=
  if accepts_output_property name value
  then Some (Transformer (xsltStyleSheetStr t) (parameters t)
                         (<[name:=value]> (outputProperties t)) (callback t))
  else None.

(** *** The constructor *)

(** The stylesheet text: a markup value is serialized, anything else is
    converted with [String(xsltStyleSheet || '')] and read as a file. *)
Definition stylesheet_text (xsltStyleSheet : value) : completion string :=
  match xsltStyleSheet with
  | VXml x => (* isXML(xsltStyleSheet) *)
      Return (toXMLString x)
  | _ =>
      let xsltStyleSheet := ToString (js_or xsltStyleSheet (VStr EmptyString)) in
      try_catch (readFile xsltStyleSheet) ("File not found:" +:+ xsltStyleSheet)
  end.

Definition XSLTProcessor (xsltStyleSheet : value) : completion transformer :=
  completion_bind (stylesheet_text xsltStyleSheet) (fun xsltStyleSheetStr =>
  try_catch
    (props ← newTransformer xsltStyleSheetStr;
     Some (Transformer xsltStyleSheetStr ∅ props None))
    ("Problem with XSLT stylesheet:" +:+ xsltStyleSheetStr)).

(** *** The resolver *)

(** A [javax.xml.transform.Source] handed back to the engine:
    [new StreamSource(systemId)], [new StreamSource(new StringReader(text))],
    or what the resolver captured at construction answers. *)
Inductive Source : Type :=
  | StreamSource_systemId (systemId : string)
  | StreamSource_StringReader (text : string)
  | StandardResolver (href base : string).

(** The source made out of what the callback returned. *)
Definition resolved_source (source : value) : Source :=
  match source with
  | VStr systemId => (* isString(source) *)
      StreamSource_systemId systemId
  | VXml x => (* isXML(source) *)
      StreamSource_StringReader (toXMLString x)
  | _ => StreamSource_StringReader (value2xml source)
  end.

(** [resolve(href, base)] of the installed [URIResolver]. *)
Definition resolve (t : transformer) (href base : string) : Source :=
  match callback t with
  | Some f => resolved_source (fn_call f href base)
  | None => StandardResolver href base
  end.

(** The function held by a value that [isFunction]. *)
Definition as_function (v : value) : option jsfunction :=
  match v with VFun f => Some f | _ => None end.

Definition set_callback (t : transformer) (cb : option jsfunction) : transformer :=
  Transformer (xsltStyleSheetStr t) (parameters t) (outputProperties t) cb.

Definition setUriResolver (t : transformer) (callback : value) : transformer :=
  if isNull callback then set_callback t None
  else if isFunction callback then set_callback t (as_function callback)
  else t.

(** [uriResolver.self.callback || null] *)
Definition getUriResolver (t : transformer) : value :=
  match callback t with
  | Some f => js_or (VFun f) VNull
  | None => js_or VUndefined VNull
  end.

(** *** Parameters *)

(** ['Could not set parameter: ' + name + ' to ' + value] *)
Definition setParameter_error (name : string) (value : value) : string :=
  "Could not set parameter: " +:+ name +:+ " to " +:+ ToString value.

Definition setParameter (t : transformer) (name value : value) : completion transformer :=
  if negb (isString name) then Return t
  else
    let name := ToString name in
    try_catch
      (if isXML value || isObject value then
         xmlDocument ← parse (match value with
                              | VXml x => toXMLString x
                              | _ => value2xml value
                              end);
         transformer_setParameter t name (JDocument xmlDocument)
       else
         transformer_setParameter t name (JString (ToString value)))
      (setParameter_error name value).

(** [getParameter(name)].  What the engine holds reaches the script through
    Rhino: a DOM document is a Java object with a [createProcessingInstruction]
    method and takes the first branch; a Java string and Java's null take the
    second, [String(parameterValue)]. *)
Definition getParameter (t : transformer) (name : string) : completion value :=
  try_catch
    (parameterValue ← transformer_getParameter t name;
     match parameterValue with
     | Some (JDocument parameterValue) =>
         result ← serialize parameterValue;
         x ← newXML result;
         Some (VXml x)
     | Some (JString parameterValue) => Some (VStr (ToString (VStr parameterValue)))
     | None => Some (VStr (ToString VNull))
     end)
    ("Could not get a parameter: " +:+ name).

Definition clearParameters (t : transformer) : transformer :=
  Transformer (xsltStyleSheetStr t) ∅ (outputProperties t) (callback t).

(** *** Output properties *)

(** [String(value) || ''] *)
Definition output_property_value (value : value) : string :=
  ToString (js_or (VStr (ToString value)) (VStr EmptyString)).

Definition setOutputProperty (t : transformer) (name value : value)
    : completion transformer :=
  if negb (isString name) then Return t
  else
    let name := ToString name in
    let value := output_property_value value in
    try_catch (transformer_setOutputProperty t name value)
      ("Could not set output property:" +:+ name +:+ " to " +:+ value).

Definition getOutputProperty (t : transformer) (name : string) : value :=
  match outputProperties t !! name with
  | Some v => VStr v
  | None => VUndefined
  end.

Definition getOutputProperties (t : transformer) : gmap string string :=
  outputProperties t.

(** *** Transformation *)

(** The document text [xmlDocumentStr] computed from the argument. *)
Definition transform_input (xmlDocument : value) : completion string :=
  match xmlDocument with
  | VXml x => (* isXML(xmlDocument) *)
      Return (toXMLString x)
  | VStr path => (* isString(xmlDocument) *)
      try_catch (readFile path) ("File does not exist:" +:+ path)
  | _ => Return (value2xml xmlDocument)
  end.

Definition transform (t : transformer) (xmlDocument : value) : completion string :=
  completion_bind (transform_input xmlDocument) (fun xmlDocumentStr =>
  try_catch (run_transform t xmlDocumentStr)
    (comma "Problem with XML document:" xmlDocumentStr)).

End Processor.

(** ** The encoder's output, element by element *)

Section Elements.
Context {host : Host}.

(** The text of one [item] element: open tag with its [index] attribute,
    content, close tag. *)
Definition item_element (index : nat) (content : string) : string :=
  "<item index=" +:+ dquote +:+ pretty index +:+ dquote +:+ ">" +:+ content +:+ "</item>".

(** The [item] elements of a list, in order: the element at index [i] holds
    the recursive encoding of the list's element at [i]. *)
Definition item_elements (L : list value) : list string :=
  imap (fun i x => item_element i (value2xml_callee x)) L.

(** Sibling elements, written one after the other. *)
Definition siblings (elements : list string) : string :=
  fold_right String.append EmptyString elements.

(** The values the script has as primitives. *)
Definition isPrimitive (v : value) : bool :=
  match v with
  | VUndefined | VNull | VBool _ | VNum _ | VStr _ => true
  | _ => false
  end.

(** The text the specification gives for a primitive: its string form, with
    undefined, null and the empty string (and nothing else) giving the empty
    string. *)
Definition spec_primitive_text (v : value) : string :=
  match v with
  | VUndefined | VNull => EmptyString
  | _ => ToString v
  end.

End Elements.

(** ** Sequences of calls and the engine's contract *)

Section Calls.
Context {host : Host} {engine : Engine}.

(** A call on a processor instance. *)
Inductive call : Type :=
  | Call_setParameter (name value : value)
  | Call_getParameter (name : string)
  | Call_clearParameters
  | Call_setOutputProperty (name value : value)
  | Call_getOutputProperty (name : string)
  | Call_setUriResolver (callback : value)
  | Call_getUriResolver
  | Call_transform (xmlDocument : value).

(** The state a call leaves: a call that throws, and a call that only
    reads, leave the state as it was. *)
Definition state_after (c : completion transformer) (t : transformer) : transformer :=
  match c with
  | Return t' => t'
  | Throw _ => t
  end.

Definition run_call (t : transformer) (c : call) : transformer :=
  match c with
  | Call_setParameter name value => state_after (setParameter t name value) t
  | Call_clearParameters => clearParameters t
  | Call_setOutputProperty name value => state_after (setOutputProperty t name value) t
  | Call_setUriResolver callback => setUriResolver t callback
  | Call_getParameter _ | Call_getOutputProperty _ | Call_getUriResolver
  | Call_transform _ => t
  end.

Definition run_calls (t : transformer) (calls : list call) : transformer :=
  fold_left run_call calls t.

(** What the DOM collaborators are relied on for at a text: if the document
    builder parses it, the serializer writes the document back as a text
    that E4X reads as the same markup value as the original text. *)
Definition dom_roundtrip (text : string) : Prop :=
  forall d : document,
    parse text = Some d ->
    exists (result : string) (x : xml),
      serialize d = Some result /\ newXML result = Some x /\ newXML text = Some x.

End Calls.

(** ** Property elements and the object of output properties *)

Section Objects.
Context {host : Host} {engine : Engine}.

(** The text of one property element: open tag named after the key,
    content, close tag. *)
Definition property_element (key content : string) : string :=
  "<" +:+ key +:+ ">" +:+ content +:+ "</" +:+ key +:+ ">".

(** The elements of a plain object's own properties, in enumeration order. *)
Definition property_elements (props : list (string * value)) : list string :=
  map (fun kv : string * value => property_element (fst kv) (value2xml_callee (snd kv)))
      props.

(** [object[key] = v] on the properties of a plain object: an existing
    property keeps its place, a new one is enumerated last. *)
Fixpoint set_property (props : list (string * value)) (key : string) (v : value)
    : list (string * value) :=
  match props with
  | [] => [(key, v)]
  | (k, x) :: rest =>
      if String.eqb k key then (k, v) :: rest
      else (k, x) :: set_property rest key v
  end.

(** [object[key]], undefined when the object has no such property. *)
Fixpoint get_property (props : list (string * value)) (key : string) : value :=
  match props with
  | [] => VUndefined
  | (k, x) :: rest => if String.eqb k key then x else get_property rest key
  end.

(** What [props.get(name)] gives the script: the string, or Java's null. *)
Definition props_get (props : gmap string string) (name : string) : value :=
  match props !! name with
  | Some v => VStr v
  | None => VNull
  end.

(** The loop of [getOutputProperties]:
    [result[propName] = String(props.get(propName))] for each of the names. *)
Definition collect_properties (props : gmap string string) (propNames : list string)
    (result : list (string * value)) : list (string * value) :=
  fold_left
    (fun result propName =>
       set_property result propName (VStr (ToString (props_get props propName))))
    propNames result.

(** The object [getOutputProperties()] returns.  [props] is the table of
    [transformer.getOutputProperties()], read with [props.get]; the names
    are [props.stringPropertyNames().toArray()], which lists the names of
    the table's own entries and the names held as defaults. *)
Definition getOutputProperties_object (t : transformer) : value :=
  let props := getOutputProperties t in
  let propNames := app (fmap fst (map_to_list props)) (default_output_property_names t) in
  VObj (collect_properties props propNames []).

(** The names a data object leaves to its prototype. *)
Definition reserved_key (key : string) : bool :=
  String.eqb key "constructor" || String.eqb key "hasOwnProperty"
  || String.eqb key "toString".

(** A value all of whose objects, at any depth, are data objects: none has
    an own property named [constructor], [hasOwnProperty] or [toString]. *)
Fixpoint plain_data (v : value) : bool :=
  match v with
  | VArr elems => forallb plain_data elems
  | VObj props =>
      forallb (fun kv : string * value =>
                 negb (reserved_key (fst kv)) && plain_data (snd kv)) props
  | _ => true
  end.

(** The source the specification describes for a callback's answer: the
    document text is obtained as [transform] obtains it from its argument (a
    string is a path whose file is read, a markup value is serialized, any
    other value is encoded) and wrapped as a source. *)
Definition spec_resolved_source (source : value) : completion Source :=
  completion_bind (transform_input source)
    (fun text => Return (StreamSource_StringReader text)).

(** [value[key]] on a script value that is a plain object. *)
Definition js_get (v : value) (key : string) : value :=
  match v with
  | VObj props => get_property props key
  | _ => VUndefined
  end.

(** How many of the tests hold. *)
Definition count_true (tests : list bool) : nat :=
  length (List.filter (fun b : bool => b) tests).

End Objects.

(** ** A small host and engine

    Numbers are the integers, printed in decimal; a markup value and a DOM
    document are represented by their text, and text is taken as markup when
    it starts with [<]; two files exist. *)
Module Demo.

Definition starts_with_lt (text : string) : bool :=
  match text with
  | String c _ => Ascii.eqb c "<"
  | EmptyString => false
  end.

Definition markup (text : string) : option string :=
  if starts_with_lt text then Some text else None.

Definition files (path : string) : option string :=
  if String.eqb path "build.xml" then Some "<project/>"
  else if String.eqb path "notes.txt" then Some "plain text"
  else None.

Definition host : Host := {|
  number := Z;
  number_to_string := pretty;
  number_to_boolean := fun z => negb (Z.eqb z 0);
  xml := string;
  toXMLString := fun x => x;
  xml_toString := fun x => x;
  newXML := markup;
  document := string;
  parse := markup;
  serialize := Some;
  readFile := files
|}.

Definition engine : @Engine host := {|
  newTransformer := fun text => if starts_with_lt text then Some ∅ else None;
  valid_parameter_name := fun _ => true;
  accepts_parameter := fun _ _ => true;
  accepts_output_property := fun _ _ => true;
  default_output_property_names := fun _ => ["method"; "indent"];
  run_transform := fun _ text => markup text
|}.

(** Whether the text holds a closing brace. *)
Fixpoint has_closing_brace (text : string) : bool :=
  match text with
  | EmptyString => false
  | String c rest => Ascii.eqb c "}" || has_closing_brace rest
  end.

(** A name in Clark notation: one that opens with a brace must close it. *)
Definition clark_name (name : string) : bool :=
  match name with
  | String c rest => if Ascii.eqb c "{" then has_closing_brace rest else true
  | EmptyString => true
  end.

(** An engine that reads parameter names in Clark notation and refuses
    every output property but [method], [indent] and [encoding]. *)
Definition strict_engine : @Engine host := {|
  newTransformer := fun text => if starts_with_lt text then Some ∅ else None;
  valid_parameter_name := clark_name;
  accepts_parameter := fun _ _ => true;
  accepts_output_property := fun name _ =>
    String.eqb name "method" || String.eqb name "indent" || String.eqb name "encoding";
  default_output_property_names := fun _ => ["method"; "indent"];
  run_transform := fun _ text => markup text
|}.

(** The processor built from [build.xml], before any call. *)
Definition fresh : @transformer host := Transformer "<project/>" ∅ ∅ None.

(** A resolver callback answering with a path, a markup value or a plain
    object, by the requested [href]. *)
Definition resolver : @jsfunction host :=
  Function "function (href, base) { ... }"
    (fun href base =>
       if String.eqb href "file" then @VStr host "build.xml"
       else if String.eqb href "markup" then @VXml host "<hello/>"
       else VObj [("href", VStr href)]).

(** A processor with that callback installed. *)
Definition resolving : @transformer host :=
  Transformer "<project/>" ∅ ∅ (Some resolver).

End Demo.

(** ** Strings *)

Lemma append_nil_l (s : string) : EmptyString +:+ s = s.
Proof. reflexivity. Qed.

Lemma append_cons (c : ascii) (s t : string) : String c s +:+ t = String c (s +:+ t).
Proof. reflexivity. Qed.

Lemma append_nil_r (s : string) : s +:+ EmptyString = s.
Proof.
  induction s as [|c s IH]; [reflexivity|].
  now rewrite append_cons, IH.
Qed.

Lemma append_assoc (s t u : string) : (s +:+ t) +:+ u = s +:+ (t +:+ u).
Proof.
  induction s as [|c s IH]; [reflexivity|].
  now rewrite !append_cons, IH.
Qed.

Lemma length_append (s t : string) :
  String.length (s +:+ t) = String.length s + String.length t.
Proof.
  induction s as [|c s IH]; [reflexivity|].
  rewrite append_cons. cbn. now rewrite IH.
Qed.

(** ** The classifier *)

Section ClassifierFacts.
Context {host : Host}.

Lemma isString_VStr (v : value) : isString v = true <-> exists s, v = VStr s.
Proof.
  split.
  - destruct v; try discriminate. eauto.
  - intros [s ->]. reflexivity.
Qed.

Lemma isXML_VXml (v : value) : isXML v = true <-> exists x, v = VXml x.
Proof.
  split.
  - destruct v; try discriminate. eauto.
  - intros [x ->]. reflexivity.
Qed.

Lemma isFunction_VFun (v : value) : isFunction v = true <-> exists f, v = VFun f.
Proof.
  split.
  - destruct v; try discriminate. eauto.
  - intros [f ->]. reflexivity.
Qed.

Lemma isObject_cases (v : value) :
  isObject v = true <-> (exists elems, v = VArr elems) \/ (exists props, v = VObj props).
Proof.
  split.
  - destruct v; try discriminate; eauto.
  - intros [[l ->]|[l ->]]; reflexivity.
Qed.

Lemma isArray_VArr (v : value) : isArray v = true <-> exists elems, v = VArr elems.
Proof.
  split.
  - destruct v; try discriminate. eauto.
  - intros [l ->]. reflexivity.
Qed.

(** The branches of the inner function are the source's tests. *)
Lemma value2xml_callee_branches (v : value) :
  value2xml_callee v =
    if isArray v then
      match v with VArr elems => encode_items value2xml_callee 0 elems EmptyString
                 | _ => EmptyString end
    else if isObject v then
      match v with VObj props => encode_props value2xml_callee props EmptyString
                 | _ => EmptyString end
    else ToString (js_or v (VStr EmptyString)).
Proof. destruct v; reflexivity. Qed.

(** The branches of [transform]'s argument are the source's tests. *)
Lemma transform_input_branches (xmlDocument : value) :
  transform_input xmlDocument =
    if isXML xmlDocument then
      match xmlDocument with VXml x => Return (toXMLString x)
                           | _ => Return EmptyString end
    else if isString xmlDocument then
      try_catch (readFile (ToString xmlDocument))
                ("File does not exist:" +:+ ToString xmlDocument)
    else Return (value2xml xmlDocument).
Proof. destruct xmlDocument; reflexivity. Qed.

(** So are the branches of the resolver, which tests for a string first. *)
Lemma resolved_source_branches (source : value) :
  resolved_source source =
    if isString source then StreamSource_systemId (ToString source)
    else if isXML source then
      match source with VXml x => StreamSource_StringReader (toXMLString x)
                      | _ => StreamSource_StringReader EmptyString end
    else StreamSource_StringReader (value2xml source).
Proof. destruct source; reflexivity. Qed.

Lemma ToString_js_or_empty (v : value) :
  ToString (js_or v (VStr EmptyString)) = if ToBoolean v then ToString v else EmptyString.
Proof. unfold js_or. destruct (ToBoolean v); reflexivity. Qed.

End ClassifierFacts.

(** ** The encoder *)

Section EncoderFacts.
Context {host : Host}.

(** The array loop appends, to the text built so far, the [item] elements of
    the remaining list, numbered from the counter on. *)
Lemma encode_items_siblings (callee : value -> string) (elems : list value) :
  forall (c : nat) (result : string),
    encode_items callee c elems result =
    result +:+ siblings (imap (fun i x => item_element (c + i) (callee x)) elems).
Proof.
  induction elems as [|x rest IH]; intros c result.
  - cbn. now rewrite append_nil_r.
  - cbn [encode_items]. rewrite IH, imap_cons.
    replace (imap ((fun i y => item_element (c + i) (callee y)) ∘ S) rest)
      with (imap (fun i y => item_element (S c + i) (callee y)) rest)
      by (apply imap_ext; intros i y _; cbn; f_equal; lia).
    unfold siblings at 2. cbn [fold_right]. fold (siblings
      (imap (fun i y => item_element (S c + i) (callee y)) rest)).
    unfold item_element at 2.
    now rewrite Nat.add_0_r, !append_assoc.
Qed.

Lemma value2xml_callee_array (L : list value) :
  value2xml_callee (VArr L) = siblings (item_elements L).
Proof.
  cbn [value2xml_callee]. rewrite encode_items_siblings. reflexivity.
Qed.

(** C2.  For every list [L], the encoder writes, under the synthetic root,
    exactly [length L] sibling [item] elements; the one at position [i]
    carries the attribute [index] equal to [i] (0-based, in order) and its
    content is the recursive encoding of the element of [L] at [i]. *)
Theorem value2xml_list_items (L : list value) :
  value2xml (VArr L) = "<root>" +:+ siblings (item_elements L) +:+ "</root>"
  /\ length (item_elements L) = length L
  /\ forall i : nat,
       item_elements L !! i =
       (fun x => item_element i (value2xml_callee x)) <$> (L !! i).
Proof.
  split; [|split].
  - unfold value2xml. change (isObject (VArr L)) with true. cbv iota.
    cbn [ToString]. now rewrite value2xml_callee_array.
  - apply length_imap.
  - intros i. unfold item_elements. apply list_lookup_imap.
Qed.

End EncoderFacts.

Section PrimitiveFacts.
Context {host : Host}.

Lemma ToBoolean_false_primitive (v : value) :
  isPrimitive v = true ->
  (ToBoolean v = false <->
   v = VUndefined \/ v = VNull \/ v = VBool false \/ v = VStr EmptyString
   \/ exists n, v = VNum n /\ number_to_boolean n = false).
Proof.
  intros Hp. destruct v as [| |b|n|s| | | |]; try discriminate; cbn.
  - tauto.
  - tauto.
  - destruct b; split; try tauto; try discriminate.
    intros [H|[H|[H|[H|[n [H _]]]]]]; discriminate.
  - split.
    + intros H. do 4 right. eauto.
    + intros [H|[H|[H|[H|[m [H Hm]]]]]]; try discriminate.
      now injection H as ->.
  - split.
    + intros H. apply negb_false_iff, String.eqb_eq in H. subst. tauto.
    + intros [H|[H|[H|[H|[m [H _]]]]]]; try discriminate.
      now injection H as ->.
Qed.

(** C3, as the code has it.  For every primitive value (textual, numeric,
    boolean, undefined or null) the encoder emits the value's string form
    when the value is truthy and the empty string when it is falsy: the
    falsy primitives are undefined, null, false, the empty string and the
    numbers whose boolean conversion is false (0 and NaN). *)
Theorem value2xml_primitive (v : value) :
  isPrimitive v = true ->
  value2xml_callee v = (if ToBoolean v then ToString v else EmptyString)
  /\ value2xml v =
       "<root>" +:+ (if ToBoolean v then ToString v else EmptyString) +:+ "</root>"
  /\ (ToBoolean v = false <->
      v = VUndefined \/ v = VNull \/ v = VBool false \/ v = VStr EmptyString
      \/ exists n, v = VNum n /\ number_to_boolean n = false).
Proof.
  intros Hp. split; [|split].
  - destruct v; try discriminate; cbn [value2xml_callee];
      apply ToString_js_or_empty.
  - unfold value2xml.
    assert (isObject v = false) as -> by (destruct v; try discriminate; reflexivity).
    now rewrite ToString_js_or_empty.
  - now apply ToBoolean_false_primitive.
Qed.

End PrimitiveFacts.

(** ** The processor's methods *)

Section ProcessorFacts.
Context {host : Host} {engine : Engine}.

Lemma try_catch_Return {A : Type} (body : option A) (thrown : string) (a : A) :
  try_catch body thrown = Return a <-> body = Some a.
Proof.
  destruct body as [b|]; cbn; split; intros H; try discriminate; congruence.
Qed.

Lemma transformer_setParameter_Some (t t' : transformer) (n : string) (o : jobject) :
  transformer_setParameter t n o = Some t' ->
  parameters t' = <[n:=o]> (parameters t)
  /\ outputProperties t' = outputProperties t
  /\ callback t' = callback t.
Proof.
  unfold transformer_setParameter.
  destruct (valid_parameter_name n && accepts_parameter n o); [|discriminate].
  intros [= <-]. auto.
Qed.

(** The engine took the name and the value. *)
Lemma transformer_setParameter_taken (t t' : transformer) (n : string) (o : jobject) :
  transformer_setParameter t n o = Some t' ->
  valid_parameter_name n = true /\ accepts_parameter n o = true.
Proof.
  unfold transformer_setParameter.
  destruct (valid_parameter_name n); [|discriminate].
  destruct (accepts_parameter n o); [auto|discriminate].
Qed.

Lemma transformer_setParameter_get (t t' : transformer) (n : string) (o : jobject) :
  transformer_setParameter t n o = Some t' ->
  transformer_getParameter t' n = Some (Some o).
Proof.
  intros H. pose proof (transformer_setParameter_taken _ _ _ _ H) as [Hv _].
  apply transformer_setParameter_Some in H as (Hp & _ & _).
  unfold transformer_getParameter. rewrite Hv, Hp. f_equal. apply lookup_insert_eq.
Qed.

(** What a call of [setParameter] that returns has stored. *)
Lemma setParameter_stored (t t' : transformer) (n : string) (v : value) :
  setParameter t (VStr n) v = Return t' ->
  if isXML v || isObject v then
    exists d, parse (match v with VXml x => toXMLString x | _ => value2xml v end) = Some d
              /\ transformer_getParameter t' n = Some (Some (JDocument d))
  else transformer_getParameter t' n = Some (Some (JString (ToString v))).
Proof.
  unfold setParameter. change (isString (VStr n)) with true.
  cbn [negb ToString]. rewrite try_catch_Return.
  destruct (isXML v || isObject v).
  - destruct (parse _) as [d|] eqn:Hparse; [|discriminate].
    cbn. intros H. exists d. split; [reflexivity|].
    now apply transformer_setParameter_get in H.
  - apply transformer_setParameter_get.
Qed.

(** C1.  After a call [setParameter(n, v)] with a string name [n] that
    returns, [getParameter(n)] returns [v] itself when [v] is textual;
    returns the markup value of the text [value2xml(v)] when [v] is an array
    or a plain object (the DOM collaborators reading back what they were
    given); and returns the string [String(v)] when [v] is any other value
    that is not a markup value, which is not [v]: the original type is
    lost. *)
Theorem setParameter_getParameter (t t' : transformer) (n : string) (v : value) :
  setParameter t (VStr n) v = Return t' ->
  (isString v = true -> getParameter t' n = Return v)
  /\ (isObject v = true -> dom_roundtrip (value2xml v) ->
      exists x, newXML (value2xml v) = Some x /\ getParameter t' n = Return (VXml x))
  /\ (isString v = false -> isObject v = false -> isXML v = false ->
      getParameter t' n = Return (VStr (ToString v))
      /\ getParameter t' n <> Return v).
Proof.
  intros Hset. apply setParameter_stored in Hset.
  split; [|split].
  - intros [s ->]%isString_VStr. cbn in Hset.
    unfold getParameter. now rewrite Hset.
  - intros Hobj Hdom. rewrite Hobj, orb_true_r in Hset.
    destruct Hset as (d & Hparse & Hget).
    assert (match v with VXml x => toXMLString x | _ => value2xml v end = value2xml v)
      as Htext by (destruct v; try discriminate; reflexivity).
    rewrite Htext in Hparse.
    destruct (Hdom d Hparse) as (result & x & Hser & Hnew & Horig).
    exists x. split; [exact Horig|].
    unfold getParameter. rewrite Hget. cbn. rewrite Hser. cbn. now rewrite Hnew.
  - intros Hs Ho Hx. rewrite Hx, Ho in Hset. cbn in Hset.
    unfold getParameter. rewrite Hset. cbn. split; [reflexivity|].
    intros [= H]. rewrite <- H in Hs. discriminate Hs.
Qed.

(** C4, what the code does.  When the engine raises on the document text,
    [transform] throws the value of the comma expression
    [('Problem with XML document:', xmlDocumentStr)], which is the document
    text alone: the message is not part of the thrown value. *)
Theorem transform_throws_document_text (t : transformer) (xmlDocument : value)
    (xmlDocumentStr : string) :
  transform_input xmlDocument = Return xmlDocumentStr ->
  run_transform t xmlDocumentStr = None ->
  transform t xmlDocument = Throw xmlDocumentStr
  /\ transform t xmlDocument <> Throw ("Problem with XML document:" +:+ xmlDocumentStr).
Proof.
  intros Hin Hrun. unfold transform. rewrite Hin. cbn [completion_bind].
  rewrite Hrun. cbn. unfold comma. split; [reflexivity|].
  intros [= H]. apply (f_equal String.length) in H.
  rewrite length_append in H. cbn in H. lia.
Qed.

(** C5.  For every string whose file cannot be read, constructing a
    processor with it throws ['File not found:'] followed by the path, and
    [transform] called with it throws ['File does not exist:'] followed by
    the path. *)
Theorem missing_file_errors (t : transformer) (path : string) :
  readFile path = None ->
  XSLTProcessor (VStr path) = Throw ("File not found:" +:+ path)
  /\ transform t (VStr path) = Throw ("File does not exist:" +:+ path).
Proof.
  intros Hread. split.
  - unfold XSLTProcessor, stylesheet_text.
    assert (ToString (js_or (VStr path) (VStr EmptyString)) = path) as ->.
    { rewrite ToString_js_or_empty. cbn.
      destruct (String.eqb path EmptyString) eqn:E; cbn; [|reflexivity].
      now apply String.eqb_eq in E. }
    now rewrite Hread.
  - unfold transform, transform_input. now rewrite Hread.
Qed.

(** C6.  With the argument absent, the document text [transform] hands to
    the engine is [<root></root>]: the synthetic root with no content, which
    is also the encoding of the empty string. *)
Theorem transform_absent_input (t : transformer) :
  transform_input VUndefined = Return "<root></root>"
  /\ value2xml (VStr EmptyString) = "<root></root>"
  /\ transform t VUndefined =
     try_catch (run_transform t "<root></root>") "<root></root>".
Proof. repeat split. Qed.

Lemma output_property_value_ToString (v : value) :
  output_property_value v = ToString v.
Proof.
  unfold output_property_value. rewrite ToString_js_or_empty. cbn.
  destruct (String.eqb (ToString v) EmptyString) eqn:E; cbn; [|reflexivity].
  now apply String.eqb_eq in E.
Qed.

(** C7, what the code does.  After a call [setOutputProperty(name, value)]
    with a textual name that returns, the engine's table holds
    [String(value)] under the name, whatever the value: the alternative of
    [String(value) || ''] is taken only when [String(value)] is already
    empty, so an absent value is stored as ['undefined']. *)
Theorem setOutputProperty_stores_String (t t' : transformer) (n : string) (v : value) :
  setOutputProperty t (VStr n) v = Return t' ->
  outputProperties t' !! n = Some (ToString v)
  /\ getOutputProperty t' n = VStr (ToString v).
Proof.
  unfold setOutputProperty. change (isString (VStr n)) with true.
  cbn [negb ToString]. rewrite try_catch_Return.
  rewrite output_property_value_ToString.
  unfold transformer_setOutputProperty.
  destruct (accepts_output_property n (ToString v)); [|discriminate].
  intros [= <-]. unfold getOutputProperty. cbn.
  now rewrite lookup_insert_eq.
Qed.

(** C8, as the code has it.  With a callback installed, a resource request
    calls it on [(href, base)] and turns what it returns into a source by
    the same three tests as [transform]'s argument, with the same text for
    a markup value (serialized with [toXMLString]) and for any other value
    (encoded with [value2xml]).  A string is treated differently from
    [transform]: the resolver reads nothing and throws nothing, it hands the
    string to the engine as the system identifier of the source, where
    [transform] reads the file and throws when it cannot. *)
Theorem resolve_dispatch (t : transformer) (f : jsfunction) (href base : string) :
  callback t = Some f ->
  let source := fn_call f href base in
  (isString source = true ->
     resolve t href base = StreamSource_systemId (ToString source)
     /\ transform_input source =
        try_catch (readFile (ToString source))
                  ("File does not exist:" +:+ ToString source))
  /\ (isXML source = true ->
      exists x, source = VXml x
        /\ resolve t href base = StreamSource_StringReader (toXMLString x)
        /\ transform_input source = Return (toXMLString x))
  /\ (isString source = false -> isXML source = false ->
      resolve t href base = StreamSource_StringReader (value2xml source)
      /\ transform_input source = Return (value2xml source)).
Proof.
  intros Hcb source. unfold resolve. rewrite Hcb. fold source.
  split; [|split].
  - intros [s ->]%isString_VStr. split; reflexivity.
  - intros [x ->]%isXML_VXml. exists x. repeat split.
  - intros Hs Hx. destruct source; try discriminate; split; reflexivity.
Qed.

Lemma setUriResolver_function (t : transformer) (f : jsfunction) :
  callback (setUriResolver t (VFun f)) = Some f
  /\ getUriResolver (setUriResolver t (VFun f)) = VFun f.
Proof. split; reflexivity. Qed.

Lemma setUriResolver_null (t : transformer) :
  callback (setUriResolver t VNull) = None
  /\ getUriResolver (setUriResolver t VNull) = VNull.
Proof. split; reflexivity. Qed.

(** C9.  For every argument that is neither null nor a function,
    [setUriResolver] leaves the processor as it was, and [getUriResolver]
    returns after the call what it returned before. *)
Theorem setUriResolver_ignored (t : transformer) (x : value) :
  isNull x = false -> isFunction x = false ->
  setUriResolver t x = t
  /\ getUriResolver (setUriResolver t x) = getUriResolver t.
Proof.
  intros Hnull Hfun. unfold setUriResolver. now rewrite Hnull, Hfun.
Qed.

(** Calls that do not set [n] leave it unset. *)
Lemma run_call_unset (t : transformer) (c : call) (n : string) :
  (forall name v, c = Call_setParameter name v -> name <> VStr n) ->
  parameters t !! n = None ->
  parameters (run_call t c) !! n = None.
Proof.
  intros Hc Hn. destruct c as [name v| | |name v| |cb| |]; cbn; try assumption.
  - unfold setParameter. destruct (isString name) eqn:Hs; cbn; [|assumption].
    apply isString_VStr in Hs as [s ->].
    assert (s <> n) as Hne by (intros ->; now apply (Hc (VStr n) v)).
    cbn [ToString].
    match goal with |- context [try_catch ?b _] => destruct b as [t'|] eqn:Hb end;
      cbn; [|assumption].
    assert (exists o, transformer_setParameter t s o = Some t') as [o Ho].
    { destruct (isXML v || isObject v); eauto.
      destruct (parse _); [|discriminate]. cbn in Hb. eauto. }
    apply transformer_setParameter_Some in Ho as (-> & _ & _).
    now rewrite lookup_insert_ne.
  - apply lookup_empty.
  - unfold setOutputProperty. destruct (isString name); cbn; [|assumption].
    unfold transformer_setOutputProperty.
    destruct (accepts_output_property _ _); cbn; assumption.
  - unfold setUriResolver. destruct (isNull cb); [assumption|].
    destruct (isFunction cb); assumption.
Qed.

Lemma run_calls_unset (calls : list call) (n : string) :
  forall t : transformer,
    (forall name v, In (Call_setParameter name v) calls -> name <> VStr n) ->
    parameters t !! n = None ->
    parameters (run_calls t calls) !! n = None.
Proof.
  induction calls as [|c calls IH]; intros t Hcalls Hn; [exact Hn|].
  cbn. apply IH.
  - intros name v Hin. apply (Hcalls name v). now right.
  - apply run_call_unset; [|exact Hn].
    intros name v ->. apply (Hcalls name v). now left.
Qed.

(** C10, as the code has it.  On a processor as constructed and then used
    by any sequence of calls none of which sets the parameter [n],
    [getParameter(n)] returns the string ['null'], not an absent value, when
    the engine's lookup takes the name; when the engine's lookup raises on
    the name, the [try] around it turns that into the thrown value
    ['Could not get a parameter: ' + name]. *)
Theorem getParameter_unset (xsltStyleSheet : value) (t : transformer)
    (calls : list call) (n : string) :
  XSLTProcessor xsltStyleSheet = Return t ->
  (forall name v, In (Call_setParameter name v) calls -> name <> VStr n) ->
  getParameter (run_calls t calls) n =
    if valid_parameter_name n then Return (VStr "null")
    else Throw ("Could not get a parameter: " +:+ n).
Proof.
  intros Hnew Hcalls.
  assert (parameters t !! n = None) as Hn.
  { unfold XSLTProcessor in Hnew.
    destruct (stylesheet_text xsltStyleSheet) as [text|]; [|discriminate].
    cbn in Hnew. destruct (newTransformer text); [|discriminate].
    cbn in Hnew. injection Hnew as <-. apply lookup_empty. }
  pose proof (run_calls_unset calls n t Hcalls Hn) as Hun.
  unfold getParameter, transformer_getParameter.
  destruct (valid_parameter_name n); [|reflexivity]. cbn. now rewrite Hun.
Qed.

End ProcessorFacts.

(** ** The theorems at work on the small host and engine *)

Section Instances.
#[local] Existing Instance Demo.host.
#[local] Existing Instance Demo.engine.

(** The small host's DOM collaborators give back the text they were given. *)
Lemma Demo_dom_roundtrip (text : string) : dom_roundtrip text.
Proof.
  intros d Hparse. cbn in Hparse. unfold Demo.markup in Hparse.
  destruct (Demo.starts_with_lt text) eqn:Hlt; [|discriminate].
  injection Hparse as <-. exists text, text. cbn. unfold Demo.markup.
  rewrite Hlt. auto.
Defined.

(** C1 on a string, on a plain object and on a number. *)
Lemma setParameter_getParameter_witness :
  (setParameter Demo.fresh (VStr "param") (VStr "test")
     = Return (Transformer "<project/>" (<["param":=JString "test"]> ∅) ∅ None)
   /\ getParameter (Transformer "<project/>" (<["param":=JString "test"]> ∅) ∅ None)
        "param" = Return (VStr "test"))
  /\ (setParameter Demo.fresh (VStr "param") (VObj [("hello", VStr "world")])
        = Return (Transformer "<project/>"
                    (<["param":=JDocument "<root><hello>world</hello></root>"]> ∅) ∅ None)
      /\ exists x, newXML (value2xml (VObj [("hello", VStr "world")])) = Some x
           /\ getParameter (Transformer "<project/>"
                    (<["param":=JDocument "<root><hello>world</hello></root>"]> ∅) ∅ None)
                "param" = Return (VXml x))
  /\ (setParameter Demo.fresh (VStr "param") (VNum 3%Z)
        = Return (Transformer "<project/>" (<["param":=JString "3"]> ∅) ∅ None)
      /\ getParameter (Transformer "<project/>" (<["param":=JString "3"]> ∅) ∅ None)
           "param" = Return (VStr "3")).
Proof.
  split; [|split].
  - assert (setParameter Demo.fresh (VStr "param") (VStr "test")
            = Return (Transformer "<project/>" (<["param":=JString "test"]> ∅) ∅ None))
      as H by (vm_compute; reflexivity).
    split; [exact H|].
    destruct (setParameter_getParameter _ _ _ _ H) as (Hstr & _ & _).
    apply Hstr. reflexivity.
  - assert (setParameter Demo.fresh (VStr "param") (VObj [("hello", VStr "world")])
            = Return (Transformer "<project/>"
                    (<["param":=JDocument "<root><hello>world</hello></root>"]> ∅) ∅ None))
      as H by (vm_compute; reflexivity).
    split; [exact H|].
    destruct (setParameter_getParameter _ _ _ _ H) as (_ & Hobj & _).
    apply Hobj; [reflexivity|apply Demo_dom_roundtrip].
  - assert (setParameter Demo.fresh (VStr "param") (VNum 3%Z)
            = Return (Transformer "<project/>" (<["param":=JString "3"]> ∅) ∅ None))
      as H by (vm_compute; reflexivity).
    split; [exact H|].
    destruct (setParameter_getParameter _ _ _ _ H) as (_ & _ & Hother).
    destruct (Hother eq_refl eq_refl eq_refl) as [Hget _]. exact Hget.
Defined.

(** C3 as the code has it, on [true] and on [false]. *)
Lemma value2xml_primitive_witness :
  (isPrimitive (VBool true) = true /\ value2xml (VBool true) = "<root>true</root>")
  /\ (isPrimitive (VBool false) = true /\ value2xml (VBool false) = "<root></root>").
Proof.
  split.
  - split; [reflexivity|].
    destruct (value2xml_primitive (VBool true) eq_refl) as (_ & H & _). exact H.
  - split; [reflexivity|].
    destruct (value2xml_primitive (VBool false) eq_refl) as (_ & H & _). exact H.
Defined.

(** C3 as the specification has it fails: [false] is a primitive whose
    string form is ['false'], and it is neither undefined, null nor the
    empty string, yet the encoder emits nothing for it (and likewise for the
    number 0). *)
Lemma value2xml_false_counterexample :
  value2xml (VBool false) = "<root></root>"
  /\ value2xml (VArr [VNum 0%Z]) = "<root>" +:+ item_element 0 EmptyString +:+ "</root>"
  /\ "<root>" +:+ spec_primitive_text (VBool false) +:+ "</root>" = "<root>false</root>"
  /\ ~ (forall v : value,
          isPrimitive v = true ->
          value2xml v = "<root>" +:+ spec_primitive_text v +:+ "</root>").
Proof.
  split; [reflexivity|]. split; [reflexivity|]. split; [reflexivity|].
  intros H. specialize (H (VBool false) eq_refl). discriminate H.
Qed.

(** C4 at [transform('notes.txt')], a file that holds no markup: the thrown
    value is the file's text. *)
Lemma transform_throws_document_text_witness :
  transform_input (VStr "notes.txt") = Return "plain text"
  /\ run_transform Demo.fresh "plain text" = None
  /\ transform Demo.fresh (VStr "notes.txt") = Throw "plain text"
  /\ transform Demo.fresh (VStr "notes.txt")
     <> Throw ("Problem with XML document:" +:+ "plain text").
Proof.
  split; [reflexivity|]. split; [reflexivity|].
  apply (transform_throws_document_text Demo.fresh (VStr "notes.txt") "plain text");
    reflexivity.
Defined.

(** C5 at [nofile.xml]. *)
Lemma missing_file_errors_witness :
  readFile "nofile.xml" = None
  /\ XSLTProcessor (VStr "nofile.xml") = Throw "File not found:nofile.xml"
  /\ transform Demo.fresh (VStr "nofile.xml") = Throw "File does not exist:nofile.xml".
Proof.
  split; [reflexivity|].
  apply (missing_file_errors Demo.fresh "nofile.xml"). reflexivity.
Defined.

(** C7 at [setOutputProperty('encoding')], the value absent. *)
Lemma setOutputProperty_stores_String_witness :
  setOutputProperty Demo.fresh (VStr "encoding") VUndefined
    = Return (Transformer "<project/>" ∅ (<["encoding":="undefined"]> ∅) None)
  /\ outputProperties (Transformer "<project/>" ∅ (<["encoding":="undefined"]> ∅) None)
       !! "encoding" = Some "undefined"
  /\ getOutputProperty (Transformer "<project/>" ∅ (<["encoding":="undefined"]> ∅) None)
       "encoding" = VStr "undefined".
Proof.
  assert (setOutputProperty Demo.fresh (VStr "encoding") VUndefined
          = Return (Transformer "<project/>" ∅ (<["encoding":="undefined"]> ∅) None))
    as H by (vm_compute; reflexivity).
  split; [exact H|].
  exact (setOutputProperty_stores_String _ _ _ _ H).
Defined.

(** C8 on the three kinds of answer. *)
Lemma resolve_dispatch_witness :
  setUriResolver Demo.fresh (VFun Demo.resolver) = Demo.resolving
  /\ callback Demo.resolving = Some Demo.resolver
  /\ resolve Demo.resolving "file" "base" = StreamSource_systemId "build.xml"
  /\ resolve Demo.resolving "markup" "base" = StreamSource_StringReader "<hello/>"
  /\ resolve Demo.resolving "other" "base"
     = StreamSource_StringReader "<root><href>other</href></root>"
  /\ transform_input (fn_call Demo.resolver "other" "base")
     = Return "<root><href>other</href></root>".
Proof.
  split; [reflexivity|]. split; [reflexivity|].
  split; [|split; [|split]].
  - destruct (resolve_dispatch Demo.resolving Demo.resolver "file" "base" eq_refl)
      as (H & _ & _).
    destruct (H eq_refl) as [Hr _]. exact Hr.
  - destruct (resolve_dispatch Demo.resolving Demo.resolver "markup" "base" eq_refl)
      as (_ & H & _).
    destruct (H eq_refl) as (x & Hx & Hr & _).
    injection Hx as <-. exact Hr.
  - destruct (resolve_dispatch Demo.resolving Demo.resolver "other" "base" eq_refl)
      as (_ & _ & H).
    destruct (H eq_refl eq_refl) as [Hr _]. exact Hr.
  - destruct (resolve_dispatch Demo.resolving Demo.resolver "other" "base" eq_refl)
      as (_ & _ & H).
    destruct (H eq_refl eq_refl) as [_ Ht]. exact Ht.
Defined.

(** C9 at [setUriResolver('resolver.js')] with a callback installed. *)
Lemma setUriResolver_ignored_witness :
  isNull (VStr "resolver.js") = false
  /\ isFunction (VStr "resolver.js") = false
  /\ setUriResolver Demo.resolving (VStr "resolver.js") = Demo.resolving
  /\ getUriResolver (setUriResolver Demo.resolving (VStr "resolver.js"))
     = VFun Demo.resolver.
Proof.
  split; [reflexivity|]. split; [reflexivity|].
  destruct (setUriResolver_ignored Demo.resolving (VStr "resolver.js") eq_refl eq_refl)
    as [Hs Hg].
  split; [exact Hs|]. rewrite Hg. reflexivity.
Defined.

(** C10 on a processor built from [build.xml], after calls that set another
    parameter and an output property. *)
Lemma getParameter_unset_witness :
  XSLTProcessor (VStr "build.xml") = Return Demo.fresh
  /\ getParameter
       (run_calls Demo.fresh
          [Call_setParameter (VStr "param") (VStr "test");
           Call_setOutputProperty (VStr "method") (VStr "text");
           Call_transform VUndefined])
       "foo" = Return (VStr "null").
Proof.
  assert (XSLTProcessor (VStr "build.xml") = Return Demo.fresh) as H
    by (vm_compute; reflexivity).
  split; [exact H|].
  apply (getParameter_unset (VStr "build.xml") Demo.fresh _ "foo" H).
  intros name v [Hin|[Hin|[Hin|[]]]]; try discriminate Hin.
  injection Hin as <- _. discriminate.
Defined.

End Instances.

(** ** More about the encoder and the classifier *)

Section EncoderMore.
Context {host : Host}.

(** The property loop appends, to the text built so far, one element per
    own property, in enumeration order. *)
Lemma encode_props_siblings (callee : value -> string) (props : list (string * value)) :
  forall result : string,
    encode_props callee props result =
    result +:+ siblings (map (fun kv : string * value =>
                                property_element (fst kv) (callee (snd kv))) props).
Proof.
  induction props as [|[key x] rest IH]; intros result.
  - cbn. now rewrite append_nil_r.
  - cbn [encode_props]. rewrite IH. cbn [map siblings fold_right fst snd].
    fold (siblings (map (fun kv : string * value =>
                           property_element (fst kv) (callee (snd kv))) rest)).
    unfold property_element at 2.
    now rewrite !append_assoc.
Qed.

(** X1.  For every data object (one that, like the objects inside it, has
    no own property named [constructor], [hasOwnProperty] or [toString]),
    the encoder writes under the synthetic root one element per own
    property, in enumeration order, named after the key and holding the
    recursive encoding of the property's value; an object without
    properties gives the empty root. *)
Theorem value2xml_object_elements (props : list (string * value)) :
  plain_data (VObj props) = true ->
  value2xml (VObj props) = "<root>" +:+ siblings (property_elements props) +:+ "</root>"
  /\ length (property_elements props) = length props
  /\ (forall i : nat,
        property_elements props !! i =
        (fun kv : string * value =>
           property_element (fst kv) (value2xml_callee (snd kv))) <$> (props !! i))
  /\ value2xml (VObj []) = "<root></root>".
Proof.
  intros _. split; [|split; [|split]].
  - unfold value2xml. change (isObject (VObj props)) with true. cbv iota.
    cbn [ToString value2xml_callee]. now rewrite encode_props_siblings.
  - apply length_map.
  - intros i. unfold property_elements. apply list_lookup_fmap.
  - reflexivity.
Qed.

(** X2.  For every value, the content of the synthetic root is the recursive
    encoding of the value: the shortcut [value || ''] taken for a value that
    is not an object gives the same text as the inner function. *)
Theorem value2xml_root_content (v : value) :
  value2xml v = "<root>" +:+ value2xml_callee v +:+ "</root>".
Proof.
  unfold value2xml. destruct v; reflexivity.
Qed.

Lemma encode_items_app (callee : value -> string) (L1 L2 : list value) :
  forall (c : nat) (result : string),
    encode_items callee c (L1 ++ L2) result =
    encode_items callee (c + length L1) L2 (encode_items callee c L1 result).
Proof.
  induction L1 as [|x L1 IH]; intros c result.
  - cbn. now rewrite Nat.add_0_r.
  - cbn [app encode_items length]. rewrite IH. f_equal. lia.
Qed.

Lemma encode_items_result (callee : value -> string) (L : list value)
    (c : nat) (result : string) :
  encode_items callee c L result = result +:+ encode_items callee c L EmptyString.
Proof.
  now rewrite (encode_items_siblings callee L c result),
              (encode_items_siblings callee L c EmptyString).
Qed.

(** X3.  Appending to an array appends to its encoding: the elements already
    there keep their text and their indexes, and the new ones are numbered
    from the old length on.  In particular one more element [x] adds the
    single [item] element with index [length L]. *)
Theorem value2xml_callee_app (L1 L2 : list value) (x : value) :
  value2xml_callee (VArr (L1 ++ L2)) =
    value2xml_callee (VArr L1) +:+
    encode_items value2xml_callee (length L1) L2 EmptyString
  /\ value2xml_callee (VArr (L1 ++ [x])) =
       value2xml_callee (VArr L1) +:+ item_element (length L1) (value2xml_callee x).
Proof.
  assert (forall L, value2xml_callee (VArr (L1 ++ L)) =
                    value2xml_callee (VArr L1) +:+
                    encode_items value2xml_callee (length L1) L EmptyString) as H.
  { intros L. cbn [value2xml_callee]. rewrite encode_items_app.
    now rewrite encode_items_result. }
  split; [apply H|].
  rewrite H. f_equal. rewrite encode_items_siblings.
  cbn [imap siblings fold_right]. now rewrite append_nil_r, Nat.add_0_r.
Qed.

(** X4.  The tests of the classifier are mutually exclusive and, with the
    booleans and the numbers, exhaustive: every value passes exactly one of
    [isUndefined], [isNull], [isString], [isFunction], [isXML], [isObject],
    [typeof value === 'boolean'] and [typeof value === 'number'].  An array
    is an object, and null is not, although its [typeof] is ['object']. *)
Theorem classifier_partition (v : value) :
  count_true [isUndefined v; isNull v; isString v; isFunction v; isXML v;
              isObject v; String.eqb (typeof v) "boolean";
              String.eqb (typeof v) "number"] = 1
  /\ (isArray v = true -> isObject v = true)
  /\ (typeof v = "object" -> isObject v = negb (isNull v)).
Proof.
  split; [|split].
  - destruct v; reflexivity.
  - destruct v; cbn; intros H; try discriminate H; reflexivity.
  - destruct v; cbn; intros H; try discriminate H; reflexivity.
Qed.

End EncoderMore.

(** ** More about parameters *)

Section ParametersMore.
Context {host : Host} {engine : Engine}.

(** A call of [setParameter] that returns has either ignored a name that is
    not a string or had the engine take an object under the name. *)
Lemma setParameter_Return_inv (t t' : transformer) (name v : value) :
  setParameter t name v = Return t' ->
  (isString name = false /\ t' = t)
  \/ exists (n : string) (o : jobject),
       name = VStr n /\ transformer_setParameter t n o = Some t'.
Proof.
  unfold setParameter. destruct (isString name) eqn:Hs; cbn [negb].
  - apply isString_VStr in Hs as [n ->]. cbn [ToString].
    rewrite try_catch_Return. intros Hb. right. exists n.
    destruct (isXML v || isObject v).
    + destruct (parse _) as [d|]; [|discriminate]. cbn in Hb. eauto.
    + eauto.
  - intros [= <-]. now left.
Qed.

Lemma try_catch_Throw {A : Type} (body : option A) (thrown msg : string) :
  try_catch body thrown = Throw msg <-> body = None /\ msg = thrown.
Proof.
  destruct body as [b|]; cbn; split.
  - discriminate.
  - intros [H _]. discriminate H.
  - intros [= <-]. auto.
  - intros [_ ->]. reflexivity.
Qed.

(** X5.  A call of [setParameter] that returns touches nothing but the
    parameter it names: the output properties, the resolver callback and the
    stylesheet are as before, and [getParameter] answers as before for every
    other name.  With a name that is not a string nothing changes at all. *)
Theorem setParameter_frame (t t' : transformer) (name v : value) :
  setParameter t name v = Return t' ->
  outputProperties t' = outputProperties t
  /\ callback t' = callback t
  /\ xsltStyleSheetStr t' = xsltStyleSheetStr t
  /\ (forall m : string, name <> VStr m -> getParameter t' m = getParameter t m)
  /\ (isString name = false -> t' = t).
Proof.
  intros [[Hs ->]|(n & o & -> & Hset)]%setParameter_Return_inv.
  - repeat split; auto.
  - pose proof (transformer_setParameter_Some _ _ _ _ Hset) as (Hp & Ho & Hc).
    unfold transformer_setParameter in Hset.
    destruct (valid_parameter_name n && accepts_parameter n o); [|discriminate].
    injection Hset as <-.
    repeat split; try reflexivity.
    + intros m Hm. unfold getParameter, transformer_getParameter. cbn.
      rewrite lookup_insert_ne; [reflexivity|]. intros ->. now apply Hm.
    + discriminate.
Qed.


(** X7.  After a call [setParameter(n, x)] with a markup value [x] that
    returns, [getParameter(n)] returns the markup value of the text
    [x.toXMLString()], the DOM collaborators reading back what they were
    given. *)
Theorem setParameter_markup_roundtrip (t t' : transformer) (n : string) (x : xml) :
  setParameter t (VStr n) (VXml x) = Return t' ->
  dom_roundtrip (toXMLString x) ->
  exists y : xml,
    newXML (toXMLString x) = Some y /\ getParameter t' n = Return (VXml y).
Proof.
  intros Hset Hdom. apply setParameter_stored in Hset. cbn in Hset.
  destruct Hset as (d & Hparse & Hget).
  destruct (Hdom d Hparse) as (result & y & Hser & Hnew & Horig).
  exists y. split; [exact Horig|].
  unfold getParameter. rewrite Hget. cbn. rewrite Hser. cbn. now rewrite Hnew.
Qed.

(** X8.  [getParameter] returns a string or a markup value and nothing else.
    It throws in three cases only: the engine's lookup raises on the name;
    or the engine holds a document under the name and the document cannot
    be serialized; or E4X refuses the serialized text.  The thrown value is
    always ['Could not get a parameter: ' + name]. *)
Theorem getParameter_outcomes (t : transformer) (n : string) :
  (forall v : value, getParameter t n = Return v -> isString v = true \/ isXML v = true)
  /\ (forall msg : string,
        getParameter t n = Throw msg ->
        msg = "Could not get a parameter: " +:+ n
        /\ (valid_parameter_name n = false
            \/ exists d : document,
                 parameters t !! n = Some (JDocument d)
                 /\ (serialize d = None
                     \/ exists result,
                          serialize d = Some result /\ newXML result = None))).
Proof.
  unfold getParameter, transformer_getParameter.
  destruct (valid_parameter_name n); cbn.
  - destruct (parameters t !! n) as [[s|d]|] eqn:Hn; cbn.
    + split; [intros v [= <-]; now left|discriminate].
    + destruct (serialize d) as [result|] eqn:Hser; cbn.
      * destruct (newXML result) as [x|] eqn:Hnew; cbn.
        -- split; [intros v [= <-]; now right|discriminate].
        -- split; [discriminate|]. intros msg [= <-]. split; [reflexivity|].
           right. exists d. split; [reflexivity|]. right. eauto.
      * split; [discriminate|]. intros msg [= <-]. split; [reflexivity|].
        right. exists d. split; [reflexivity|]. now left.
    + split; [intros v [= <-]; now left|discriminate].
  - split; [discriminate|]. intros msg [= <-]. split; [reflexivity|]. now left.
Qed.

End ParametersMore.

(** ** More about output properties *)

Section OutputPropertiesMore.
Context {host : Host} {engine : Engine}.

Lemma setOutputProperty_Return_inv (t t' : transformer) (name v : value) :
  setOutputProperty t name v = Return t' ->
  (isString name = false /\ t' = t)
  \/ exists n : string,
       name = VStr n
       /\ t' = Transformer (xsltStyleSheetStr t) (parameters t)
                 (<[n:=ToString v]> (outputProperties t)) (callback t).
Proof.
  unfold setOutputProperty. destruct (isString name) eqn:Hs; cbn [negb].
  - apply isString_VStr in Hs as [n ->]. cbn [ToString].
    rewrite try_catch_Return, output_property_value_ToString.
    unfold transformer_setOutputProperty.
    destruct (accepts_output_property n (ToString v)); [|discriminate].
    intros [= <-]. right. eauto.
  - intros [= <-]. now left.
Qed.

(** X10.  A call of [setOutputProperty] that returns touches nothing but the
    property it names: the parameters, the resolver callback and the
    stylesheet are as before, and [getOutputProperty] answers as before for
    every other name.  With a name that is not a string nothing changes at
    all. *)
Theorem setOutputProperty_frame (t t' : transformer) (name v : value) :
  setOutputProperty t name v = Return t' ->
  parameters t' = parameters t
  /\ callback t' = callback t
  /\ xsltStyleSheetStr t' = xsltStyleSheetStr t
  /\ (forall m : string, name <> VStr m ->
        getOutputProperty t' m = getOutputProperty t m)
  /\ (isString name = false -> t' = t).
Proof.
  intros [[Hs ->]|(n & -> & ->)]%setOutputProperty_Return_inv.
  - repeat split; auto.
  - repeat split; try reflexivity.
    + intros m Hm. unfold getOutputProperty. cbn.
      rewrite lookup_insert_ne; [reflexivity|]. intros ->. now apply Hm.
    + discriminate.
Qed.


Lemma get_set_property (props : list (string * value)) (key key' : string) (v : value) :
  get_property (set_property props key v) key' =
  if String.eqb key key' then v else get_property props key'.
Proof.
  induction props as [|[k x] rest IH]; cbn.
  - destruct (String.eqb key key'); reflexivity.
  - destruct (String.eqb k key) eqn:Hk; cbn.
    + apply String.eqb_eq in Hk as ->.
      destruct (String.eqb key key'); reflexivity.
    + rewrite IH. destruct (String.eqb key key') eqn:Hkk; [|reflexivity].
      apply String.eqb_eq in Hkk as <-. now rewrite Hk.
Qed.

(** The loop leaves, under a name it went through, the string form of the
    table's entry, and any other property as it found it. *)
Lemma collect_properties_get (props : gmap string string) (propNames : list string)
    (name : string) :
  forall result : list (string * value),
    get_property (collect_properties props propNames result) name =
    if bool_decide (name ∈ propNames)
    then VStr (ToString (props_get props name))
    else get_property result name.
Proof.
  induction propNames as [|p rest IH]; intros result.
  - reflexivity.
  - unfold collect_properties in *. cbn [fold_left]. rewrite IH.
    destruct (bool_decide (name ∈ rest)) eqn:Hrest.
    + apply bool_decide_eq_true in Hrest.
      rewrite bool_decide_eq_true_2; [reflexivity|]. now right.
    + apply bool_decide_eq_false in Hrest. rewrite get_set_property.
      destruct (String.eqb p name) eqn:Hp.
      * apply String.eqb_eq in Hp as ->.
        rewrite bool_decide_eq_true_2; [reflexivity|]. now left.
      * apply String.eqb_neq in Hp.
        rewrite bool_decide_eq_false_2; [reflexivity|].
        intros [->|Hin]%elem_of_cons; [now apply Hp|now apply Hrest].
Qed.

(** X12.  The object [getOutputProperties()] returns has, for every name of
    the table, the string [getOutputProperty(name)] returns, and has no
    property for a name that is neither in the table nor held as a default.
    For a name held only as a default it has the string ['null'], where
    [getOutputProperty(name)] returns undefined: the loop reads the name from
    [stringPropertyNames] and its value with [props.get]. *)
Theorem getOutputProperties_object_properties (t : transformer) (name : string) :
  (is_Some (outputProperties t !! name) \/ name ∉ default_output_property_names t ->
     js_get (getOutputProperties_object t) name = getOutputProperty t name)
  /\ (outputProperties t !! name = None ->
      name ∈ default_output_property_names t ->
      js_get (getOutputProperties_object t) name = VStr "null"
      /\ getOutputProperty t name = VUndefined).
Proof.
  assert (js_get (getOutputProperties_object t) name =
          match outputProperties t !! name with
          | Some v => VStr v
          | None => if bool_decide (name ∈ default_output_property_names t)
                    then VStr "null" else VUndefined
          end) as Hget.
  { unfold getOutputProperties_object, getOutputProperties, js_get.
    rewrite collect_properties_get. unfold props_get.
    destruct (outputProperties t !! name) as [v|] eqn:Hn.
    - rewrite bool_decide_eq_true_2; [reflexivity|].
      apply elem_of_app. left.
      apply list_elem_of_fmap. exists (name, v). split; [reflexivity|].
      now apply elem_of_map_to_list.
    - destruct (bool_decide (name ∈ default_output_property_names t)) eqn:Hd.
      + apply bool_decide_eq_true in Hd.
        rewrite bool_decide_eq_true_2; [reflexivity|].
        apply elem_of_app. now right.
      + apply bool_decide_eq_false in Hd.
        rewrite bool_decide_eq_false_2; [reflexivity|].
        intros [([k v] & -> & Hin)%list_elem_of_fmap|Hin]%elem_of_app.
        * apply elem_of_map_to_list in Hin. cbn in Hn. congruence.
        * now apply Hd. }
  rewrite Hget. unfold getOutputProperty. split.
  - intros [[v Hv]|Hd].
    + now rewrite Hv.
    + destruct (outputProperties t !! name); [reflexivity|].
      now rewrite bool_decide_eq_false_2.
  - intros -> Hd. now rewrite bool_decide_eq_true_2.
Qed.

(** Calls other than [setOutputProperty] on [n] keep the table's entry for
    [n]. *)
Lemma run_call_outputProperty (t : transformer) (c : call) (n : string) :
  (forall v, c <> Call_setOutputProperty (VStr n) v) ->
  outputProperties (run_call t c) !! n = outputProperties t !! n.
Proof.
  intros Hc. destruct c as [name v| | |name v| |cb| |]; cbn; try reflexivity.
  - destruct (setParameter t name v) as [t'|] eqn:Hset; [|reflexivity]. cbn.
    apply setParameter_Return_inv in Hset as [[_ ->]|(m & o & _ & Hset)];
      [reflexivity|].
    apply transformer_setParameter_Some in Hset as (_ & -> & _). reflexivity.
  - destruct (setOutputProperty t name v) as [t'|] eqn:Hset; [|reflexivity]. cbn.
    apply setOutputProperty_Return_inv in Hset as [[_ ->]|(m & -> & ->)];
      [reflexivity|].
    cbn. rewrite lookup_insert_ne; [reflexivity|].
    intros ->. now apply (Hc v).
  - unfold setUriResolver. destruct (isNull cb); [reflexivity|].
    destruct (isFunction cb); reflexivity.
Qed.

(** X13.  An output property stays as it is through any sequence of calls
    none of which is [setOutputProperty] on its name: setting or clearing
    parameters, setting other properties, changing the resolver and
    transforming do not touch it. *)
Theorem outputProperty_persists (t : transformer) (calls : list call) (n : string) :
  (forall v, ~ In (Call_setOutputProperty (VStr n) v) calls) ->
  getOutputProperty (run_calls t calls) n = getOutputProperty t n.
Proof.
  revert t. induction calls as [|c calls IH]; intros t Hcalls; [reflexivity|].
  cbn [run_calls fold_left]. fold (run_calls (run_call t c) calls).
  rewrite IH.
  - unfold getOutputProperty. rewrite run_call_outputProperty; [reflexivity|].
    intros v ->. apply (Hcalls v). now left.
  - intros v Hin. apply (Hcalls v). now right.
Qed.

(** Calls other than [setUriResolver] keep the callback. *)
Lemma run_call_callback (t : transformer) (c : call) :
  (forall cb, c <> Call_setUriResolver cb) ->
  callback (run_call t c) = callback t.
Proof.
  intros Hc. destruct c as [name v| | |name v| |cb| |]; cbn; try reflexivity.
  - destruct (setParameter t name v) as [t'|] eqn:Hset; [|reflexivity]. cbn.
    apply setParameter_Return_inv in Hset as [[_ ->]|(m & o & _ & Hset)];
      [reflexivity|].
    now apply transformer_setParameter_Some in Hset as (_ & _ & ->).
  - destruct (setOutputProperty t name v) as [t'|] eqn:Hset; [|reflexivity]. cbn.
    apply setOutputProperty_Return_inv in Hset as [[_ ->]|(m & -> & ->)];
      reflexivity.
  - now destruct (Hc cb).
Qed.

(** X14.  The resolver callback stays installed through any sequence of
    calls none of which is [setUriResolver]: [getUriResolver] returns the
    same function and a resource request is answered the same way. *)
Theorem callback_persists (t : transformer) (calls : list call) (href base : string) :
  (forall cb, ~ In (Call_setUriResolver cb) calls) ->
  getUriResolver (run_calls t calls) = getUriResolver t
  /\ resolve (run_calls t calls) href base = resolve t href base.
Proof.
  intros Hcalls.
  assert (callback (run_calls t calls) = callback t) as H.
  { revert t. induction calls as [|c calls IH]; intros t; [reflexivity|].
    cbn [run_calls fold_left]. fold (run_calls (run_call t c) calls).
    rewrite IH.
    - apply run_call_callback. intros cb ->. apply (Hcalls cb). now left.
    - intros cb Hin. apply (Hcalls cb). now right. }
  unfold getUriResolver, resolve. now rewrite H.
Qed.

End OutputPropertiesMore.

(** ** More about construction, transformation and the resolver *)

Section ProcessorMore.
Context {host : Host} {engine : Engine}.

Lemma completion_bind_Return {A B : Type} (c : completion A) (k : A -> completion B)
    (b : B) :
  completion_bind c k = Return b <-> exists a, c = Return a /\ k a = Return b.
Proof.
  destruct c as [a|e]; cbn; split.
  - eauto.
  - intros (a' & [= <-] & H). exact H.
  - discriminate.
  - intros (a' & H & _). discriminate H.
Qed.

Lemma completion_bind_Throw {A B : Type} (c : completion A) (k : A -> completion B)
    (msg : string) :
  completion_bind c k = Throw msg <->
  c = Throw msg \/ exists a, c = Return a /\ k a = Throw msg.
Proof.
  destruct c as [a|e]; cbn; split.
  - eauto.
  - intros [H|(a' & [= <-] & H)]; [discriminate H|exact H].
  - intros [= <-]. now left.
  - intros [[= <-]|(a' & H & _)]; [reflexivity|discriminate H].
Qed.

(** The path the constructor reads for an argument that is not a markup
    value. *)
Lemma stylesheet_text_path (v : value) :
  isXML v = false ->
  stylesheet_text v =
    try_catch (readFile (if ToBoolean v then ToString v else EmptyString))
              ("File not found:" +:+ (if ToBoolean v then ToString v else EmptyString)).
Proof.
  intros Hx. destruct v; try discriminate Hx; unfold stylesheet_text;
    now rewrite ToString_js_or_empty.
Qed.

(** X15.  A processor that has been constructed has no parameter and no
    resolver callback: [getUriResolver] returns null and a resource request
    goes to the standard resolver.  Its stylesheet text is the serialized
    markup value, or the content of the file named by the argument, and its
    output properties are the ones the engine read from that text. *)
Theorem XSLTProcessor_fresh (xsltStyleSheet : value) (t : transformer) :
  XSLTProcessor xsltStyleSheet = Return t ->
  parameters t = ∅
  /\ getUriResolver t = VNull
  /\ (forall href base, resolve t href base = StandardResolver href base)
  /\ stylesheet_text xsltStyleSheet = Return (xsltStyleSheetStr t)
  /\ newTransformer (xsltStyleSheetStr t) = Some (outputProperties t).
Proof.
  unfold XSLTProcessor. intros (text & Htext & Hnew)%completion_bind_Return.
  apply try_catch_Return in Hnew.
  destruct (newTransformer text) as [props|] eqn:Hprops; [|discriminate].
  cbn in Hnew. injection Hnew as <-. cbn. repeat split; auto.
Qed.


(** X17.  An argument of the constructor that is neither a markup value
    nor an object is taken as the path [String(xsltStyleSheet || '')]: the
    constructor behaves as for that string, so that an absent or falsy
    argument is the empty path and a number is the file named by its
    decimal form. *)
Theorem XSLTProcessor_path (v : value) :
  isXML v = false ->
  isObject v = false ->
  XSLTProcessor v =
    XSLTProcessor (VStr (if ToBoolean v then ToString v else EmptyString))
  /\ (ToBoolean v = false -> XSLTProcessor v = XSLTProcessor (VStr EmptyString)).
Proof.
  intros Hx _.
  assert (forall p, stylesheet_text (VStr p) =
                    try_catch (readFile p) ("File not found:" +:+ p)) as Hstr.
  { intros p. rewrite stylesheet_text_path by reflexivity. cbn.
    destruct (String.eqb p EmptyString) eqn:E; cbn; [|reflexivity].
    now apply String.eqb_eq in E as ->. }
  assert (XSLTProcessor v =
          XSLTProcessor (VStr (if ToBoolean v then ToString v else EmptyString))) as H.
  { unfold XSLTProcessor. now rewrite Hstr, (stylesheet_text_path v Hx). }
  split; [exact H|]. intros Hf. now rewrite H, Hf.
Qed.

(** X18.  On data values, [transform] throws in two cases only: the
    argument is a string and the file it names cannot be read, and the
    thrown value is ['File does not exist:'] and the path; or the engine
    raises on the document text, and the thrown value is that text.  An
    argument that is not a string never gives a file error. *)
Theorem transform_throws (t : transformer) (xmlDocument : value) (msg : string) :
  plain_data xmlDocument = true ->
  transform t xmlDocument = Throw msg ->
  (exists path : string,
     xmlDocument = VStr path /\ readFile path = None
     /\ msg = "File does not exist:" +:+ path)
  \/ (exists xmlDocumentStr : string,
        transform_input xmlDocument = Return xmlDocumentStr
        /\ run_transform t xmlDocumentStr = None
        /\ msg = xmlDocumentStr).
Proof.
  intros _. unfold transform.
  intros [Hin|(text & Hin & Hrun)]%completion_bind_Throw.
  - left. destruct xmlDocument; try discriminate Hin.
    cbn in Hin. apply try_catch_Throw in Hin as [Hread ->]. eauto.
  - right. exists text. apply try_catch_Throw in Hrun as [Hrun ->].
    unfold comma. auto.
Qed.

(** X19.  A callback that answers with a falsy value that is not a string
    (undefined, null, false, 0, NaN) does not send the request back to the
    standard resolver: the resource is the empty root document.  The empty
    string is given to the engine as an empty system identifier. *)
Theorem resolve_falsy_answer (t : transformer) (f : jsfunction) (href base : string) :
  callback t = Some f ->
  ToBoolean (fn_call f href base) = false ->
  resolve t href base =
    if isString (fn_call f href base) then StreamSource_systemId EmptyString
    else StreamSource_StringReader "<root></root>".
Proof.
  intros Hcb Hfalsy. unfold resolve. rewrite Hcb.
  destruct (fn_call f href base) as [| |b|n|s| | | |]; try discriminate Hfalsy;
    cbn in Hfalsy |- *.
  - reflexivity.
  - reflexivity.
  - now subst b.
  - unfold value2xml. cbn. unfold js_or. cbn. now rewrite Hfalsy.
  - apply negb_false_iff, String.eqb_eq in Hfalsy. now subst s.
Qed.

(** X20.  [setUriResolver] with a function installs it, whatever was
    installed before, and with null removes it: [getUriResolver] returns the
    function, then null, and requests go to the callback, then to the
    standard resolver.  Neither call touches parameters or output
    properties. *)
Theorem setUriResolver_install_clear (t : transformer) (f : jsfunction)
    (href base : string) :
  let installed := setUriResolver t (VFun f) in
  let cleared := setUriResolver installed VNull in
  getUriResolver installed = VFun f
  /\ resolve installed href base = resolved_source (fn_call f href base)
  /\ getUriResolver cleared = VNull
  /\ resolve cleared href base = StandardResolver href base
  /\ parameters cleared = parameters t
  /\ outputProperties cleared = outputProperties t.
Proof. repeat split. Qed.

End ProcessorMore.

(** ** The further theorems at work on the small host and engine *)

Section InstancesMore.
#[local] Existing Instance Demo.host.
#[local] Existing Instance Demo.engine.

(** C8 as stated fails: for a callback answering the string [build.xml],
    the same dispatch as [transform] would read the file and wrap its
    content, and the resolver wraps the string itself as a system
    identifier. *)
Lemma resolve_string_counterexample :
  fn_call Demo.resolver "file" "base" = VStr "build.xml"
  /\ resolve Demo.resolving "file" "base" = StreamSource_systemId "build.xml"
  /\ spec_resolved_source (fn_call Demo.resolver "file" "base")
     = Return (StreamSource_StringReader "<project/>")
  /\ ~ (forall href base : string,
          Return (resolve Demo.resolving href base)
          = spec_resolved_source (fn_call Demo.resolver href base)).
Proof.
  split; [reflexivity|]. split; [reflexivity|]. split; [reflexivity|].
  intros H. specialize (H "file" "base"). discriminate H.
Qed.

(** X1 at [{hello: 'world', list: [1]}]. *)
Lemma value2xml_object_elements_witness :
  plain_data (VObj [("hello", VStr "world"); ("list", VArr [@VNum Demo.host 1%Z])]) = true
  /\ value2xml (VObj [("hello", VStr "world"); ("list", VArr [@VNum Demo.host 1%Z])])
     = "<root>" +:+
       siblings [property_element "hello" "world";
                 property_element "list" (item_element 0 "1")] +:+
       "</root>".
Proof.
  split; [reflexivity|].
  destruct (value2xml_object_elements
              [("hello", VStr "world"); ("list", VArr [@VNum Demo.host 1%Z])] eq_refl)
    as [H _].
  exact H.
Defined.

(** X5 at [setParameter('param', 'test')]: another parameter is as unset as
    before. *)
Lemma setParameter_frame_witness :
  setParameter Demo.fresh (VStr "param") (VStr "test")
    = Return (Transformer "<project/>" (<["param":=JString "test"]> ∅) ∅ None)
  /\ getParameter (Transformer "<project/>" (<["param":=JString "test"]> ∅) ∅ None) "foo"
     = getParameter Demo.fresh "foo".
Proof.
  assert (setParameter Demo.fresh (VStr "param") (VStr "test")
          = Return (Transformer "<project/>" (<["param":=JString "test"]> ∅) ∅ None))
    as H by (vm_compute; reflexivity).
  split; [exact H|].
  destruct (setParameter_frame _ _ _ _ H) as (_ & _ & _ & Hget & _).
  apply Hget. discriminate.
Defined.

(** X7 at [setParameter('param', <hello>world</hello>)]. *)
Lemma setParameter_markup_roundtrip_witness :
  setParameter Demo.fresh (VStr "param") (VXml "<hello>world</hello>")
    = Return (Transformer "<project/>"
                (<["param":=JDocument "<hello>world</hello>"]> ∅) ∅ None)
  /\ exists y,
       newXML "<hello>world</hello>" = Some y
       /\ getParameter (Transformer "<project/>"
                (<["param":=JDocument "<hello>world</hello>"]> ∅) ∅ None) "param"
          = Return (VXml y).
Proof.
  assert (setParameter Demo.fresh (VStr "param") (VXml "<hello>world</hello>")
          = Return (Transformer "<project/>"
                      (<["param":=JDocument "<hello>world</hello>"]> ∅) ∅ None))
    as H by (vm_compute; reflexivity).
  split; [exact H|].
  apply (setParameter_markup_roundtrip _ _ _ _ H). apply Demo_dom_roundtrip.
Defined.

(** X8 on a table that holds, under [param], a document E4X cannot read
    back. *)
Lemma getParameter_outcomes_witness :
  getParameter (Transformer "<project/>" (<["param":=JDocument "plain"]> ∅) ∅ None)
    "param" = Throw "Could not get a parameter: param"
  /\ (valid_parameter_name "param" = false
      \/ exists d : document,
           parameters
             (Transformer "<project/>" (<["param":=JDocument "plain"]> ∅) ∅ None)
             !! "param" = Some (JDocument d)
           /\ (serialize d = None
               \/ exists result, serialize d = Some result /\ newXML result = None)).
Proof.
  assert (getParameter
            (Transformer "<project/>" (<["param":=JDocument "plain"]> ∅) ∅ None)
            "param" = Throw "Could not get a parameter: param")
    as H by (vm_compute; reflexivity).
  split; [exact H|].
  destruct (proj2 (getParameter_outcomes _ _) _ H) as [_ Hd]. exact Hd.
Defined.

(** X10 at [setOutputProperty('method', 'text')]: another property is as
    unset as before. *)
Lemma setOutputProperty_frame_witness :
  setOutputProperty Demo.fresh (VStr "method") (VStr "text")
    = Return (Transformer "<project/>" ∅ (<["method":="text"]> ∅) None)
  /\ getOutputProperty (Transformer "<project/>" ∅ (<["method":="text"]> ∅) None)
       "indent" = getOutputProperty Demo.fresh "indent".
Proof.
  assert (setOutputProperty Demo.fresh (VStr "method") (VStr "text")
          = Return (Transformer "<project/>" ∅ (<["method":="text"]> ∅) None))
    as H by (vm_compute; reflexivity).
  split; [exact H|].
  destruct (setOutputProperty_frame _ _ _ _ H) as (_ & _ & _ & Hget & _).
  apply Hget. discriminate.
Defined.

(** X13 on a processor with [method] set, through parameter calls, another
    property and a transformation. *)
Lemma outputProperty_persists_witness :
  getOutputProperty
    (run_calls (Transformer "<project/>" ∅ (<["method":="text"]> ∅) None)
       [Call_setParameter (VStr "param") (VStr "test");
        Call_clearParameters;
        Call_setOutputProperty (VStr "indent") (VStr "yes");
        Call_transform VUndefined])
    "method" = VStr "text".
Proof.
  rewrite (outputProperty_persists
             (Transformer "<project/>" ∅ (<["method":="text"]> ∅) None) _ "method").
  - reflexivity.
  - intros v [Hin|[Hin|[Hin|[Hin|[]]]]]; discriminate Hin.
Defined.

(** X14 on the processor with a callback, through parameter calls. *)
Lemma callback_persists_witness :
  getUriResolver
    (run_calls Demo.resolving
       [Call_setParameter (VStr "param") (VStr "test"); Call_clearParameters])
  = VFun Demo.resolver.
Proof.
  destruct (callback_persists Demo.resolving
              [Call_setParameter (VStr "param") (VStr "test"); Call_clearParameters]
              "href" "base") as [Hget _].
  - intros cb [Hin|[Hin|[]]]; discriminate Hin.
  - rewrite Hget. reflexivity.
Defined.

(** X15 at [new XSLTProcessor('build.xml')]. *)
Lemma XSLTProcessor_fresh_witness :
  XSLTProcessor (VStr "build.xml") = Return Demo.fresh
  /\ parameters Demo.fresh = ∅
  /\ getUriResolver Demo.fresh = VNull
  /\ (forall href base, resolve Demo.fresh href base = StandardResolver href base)
  /\ stylesheet_text (VStr "build.xml") = Return (xsltStyleSheetStr Demo.fresh)
  /\ newTransformer (xsltStyleSheetStr Demo.fresh) = Some (outputProperties Demo.fresh).
Proof.
  assert (XSLTProcessor (VStr "build.xml") = Return Demo.fresh) as H
    by (vm_compute; reflexivity).
  split; [exact H|].
  exact (XSLTProcessor_fresh _ _ H).
Defined.


(** X17 at [new XSLTProcessor()]: the empty path is read. *)
Lemma XSLTProcessor_path_witness :
  isXML VUndefined = false
  /\ isObject VUndefined = false
  /\ XSLTProcessor VUndefined = XSLTProcessor (VStr EmptyString)
  /\ XSLTProcessor VUndefined = Throw "File not found:".
Proof.
  split; [reflexivity|]. split; [reflexivity|].
  destruct (XSLTProcessor_path VUndefined eq_refl eq_refl) as [_ H].
  split; [exact (H eq_refl)|]. rewrite (H eq_refl). reflexivity.
Defined.

(** X18 at [transform('nofile.xml')]. *)
Lemma transform_throws_witness :
  plain_data (VStr "nofile.xml") = true
  /\ transform Demo.fresh (VStr "nofile.xml") = Throw "File does not exist:nofile.xml"
  /\ ((exists path : string,
         VStr "nofile.xml" = VStr path /\ readFile path = None
         /\ "File does not exist:nofile.xml" = "File does not exist:" +:+ path)
      \/ (exists xmlDocumentStr : string,
            transform_input (VStr "nofile.xml") = Return xmlDocumentStr
            /\ run_transform Demo.fresh xmlDocumentStr = None
            /\ "File does not exist:nofile.xml" = xmlDocumentStr)).
Proof.
  split; [reflexivity|].
  assert (transform Demo.fresh (VStr "nofile.xml")
          = Throw "File does not exist:nofile.xml") as H
    by (vm_compute; reflexivity).
  split; [exact H|].
  exact (transform_throws Demo.fresh (VStr "nofile.xml") _ eq_refl H).
Defined.

(** X19 on a callback that returns nothing. *)
Lemma resolve_falsy_answer_witness :
  resolve
    (Transformer "<project/>" ∅ ∅
       (Some (Function "function (href, base) { }" (fun _ _ => VUndefined))))
    "data.xml" "base"
  = StreamSource_StringReader "<root></root>".
Proof.
  exact (resolve_falsy_answer
           (Transformer "<project/>" ∅ ∅
              (Some (Function "function (href, base) { }" (fun _ _ => VUndefined))))
           (Function "function (href, base) { }" (fun _ _ => VUndefined))
           "data.xml" "base" eq_refl eq_refl).
Defined.

End InstancesMore.

Section InstancesStrict.
#[local] Existing Instance Demo.host.
#[local] Existing Instance Demo.strict_engine.


(** C10 as stated fails: on the engine that reads names in Clark notation,
    a processor just constructed, on which no parameter was ever set, throws
    for the name [{urn:x], whose brace is never closed, where the claim has
    ['null'] returned for every name. *)
Lemma getParameter_unset_counterexample :
  XSLTProcessor (VStr "build.xml") = Return Demo.fresh
  /\ getParameter (run_calls Demo.fresh []) "{urn:x"
     = Throw "Could not get a parameter: {urn:x"
  /\ ~ (forall n : string,
          getParameter (run_calls Demo.fresh []) n = Return (VStr "null")).
Proof.
  split; [vm_compute; reflexivity|]. split; [vm_compute; reflexivity|].
  intros H. specialize (H "{urn:x"). vm_compute in H. discriminate H.
Qed.


End InstancesStrict.
